(** * DETR data feeder: label targets, object index bookkeeping and
      positional encodings

    A shallow embedding of [detr_models/detr/data_feeder.py], with the file
    names that [detr_models/detr/train.py] shares with it.

    Arrays that the code indexes or iterates are nested lists in row-major
    order; the array that [loadtxt] returns is a shape with its flat data.
    Python exceptions are the [Raise] outcome of [pyresult].  The functions
    that numba compiles are compiled without bounds checking: a store past
    the end of an array is not checked and leaves the array as it is.
    Floating-point values are elements of a carrier type
    equipped with the operations the source applies to them, so that the
    statements hold for every interpretation of these operations; the
    reals give the exact reading and the rationals a carrier to compute
    with.  The dimensions of a feature map and the batch size are natural
    numbers. *)

From Stdlib Require Import ZArith QArith Reals Lia Lra.
From stdpp Require Import base list strings.

(** ** Python outcomes *)

Inductive exn : Set :=
| ValueError   (* bad shape, failed unpacking, failed reshape *)
| TypingError  (* numba finds no typing of a compiled function for the
                  argument it is called on *)
| CapacityError. (* the rejection of a sample with more objects than query
                    slots; no path of the source raises it *)

Inductive pyresult (A : Type) : Type :=
| Ok (a : A)
| Raise (e : exn).

Arguments Ok {A} a.
Arguments Raise {A} e.

#[export] Instance pyresult_ret : MRet pyresult := fun A a => Ok a.

#[export] Instance pyresult_bind : MBind pyresult := fun A B k m =>
  match m with
  | Ok a => k a
  | Raise e => Raise e
  end.

Definition fails {A : Type} (m : pyresult A) : Prop :=
  exists e, m = Raise e.

(** ** Floating-point values *)

(** [of_int] is the conversion of an integer to a float, [fne] the
    elementwise [!=] and [to_float32] the conversion to dtype float32. *)
Class FloatCmp (F : Type) : Type := {
  of_int : Z -> F;
  fne : F -> F -> bool;
  to_float32 : F -> F
}.

(** The arithmetic of the positional encodings: [/], [**] and [np.sin]. *)
Class FloatArith (F : Type) `{FloatCmp F} : Type := {
  fdiv : F -> F -> F;
  fpow : F -> F -> F;
  fsin : F -> F
}.

(** Rationals as a carrier on which the target functions run. *)
#[export] Instance Q_FloatCmp : FloatCmp Q := {|
  of_int := inject_Z;
  fne := fun a b => negb (Qeq_bool a b);
  to_float32 := fun a => a
|}.

(** Real numbers as the exact reading of the arithmetic. *)
#[export] Instance R_FloatCmp : FloatCmp R := {|
  of_int := IZR;
  fne := fun a b => if Req_dec_T a b then false else true;
  to_float32 := fun a => a
|}.

#[export] Instance R_FloatArith : FloatArith R := {|
  fdiv := Rdiv;
  fpow := Rpower;
  fsin := sin
|}.

(** ** Label targets and object indices *)

Section Targets.
Context {F : Type} `{FloatCmp F}.

(** [np.full(shape=(rows, cols), fill_value=v)]: a negative dimension is a
    [ValueError]. *)
Definition np_full (rows : Z) (cols : nat) (v : F) : pyresult (list (list F)) :=
  if (rows <? 0)%Z then Raise ValueError
  else Ok (replicate (Z.to_nat rows) (replicate cols v)).

(** [arr[idx] = row] for [idx >= 0], in a function that numba compiles
    without bounds checking: the index is not checked, and a store past the
    end does not land in the array. *)
Definition setitem (arr : list (list F)) (idx : nat) (row : list F)
  : list (list F) :=
  <[idx := row]> arr.

(** [cls_label, x, y, w, h = labeled_obj] *)
Definition unpack5 (labeled_obj : list F) : pyresult (F * F * F * F * F) :=
  match labeled_obj with
  | [cls_label; x; y; w; h] => Ok (cls_label, x, y, w, h)
  | _ => Raise ValueError
  end.

(** The body of [for idx, labeled_obj in enumerate(sample_labels)], from
    position [idx] on. *)
Fixpoint targets_loop (idx : nat) (sample_labels : list (list F))
    (sample_cls sample_bbox : list (list F))
  : pyresult (list (list F) * list (list F)) :=
  match sample_labels with
  | [] => Ok (sample_cls, sample_bbox)
  | labeled_obj :: rest =>
      '(cls_label, x, y, w, h) ← unpack5 labeled_obj;
      let sample_cls' := setitem sample_cls idx [cls_label] in
      let sample_bbox' := setitem sample_bbox idx [x; y; w; h] in
      targets_loop (S idx) rest sample_cls' sample_bbox'
  end.

Definition labels_to_targets (sample_labels : list (list F))
    (num_queries num_classes : Z)
  : pyresult (list (list F) * list (list F)) :=
  sample_cls ← np_full num_queries 1 (of_int num_classes);
  sample_bbox ← np_full num_queries 4 (of_int num_classes);
  targets_loop 0 sample_labels sample_cls sample_bbox.

(** [np.where(sample != v)[0]]: the row index of every element that
    differs from [v], in row-major order. *)
Definition where_ne (v : F) (sample : list (list F)) : list nat :=
  concat (imap (fun i row => replicate (length (List.filter (fun x => fne x v) row)) i)
               sample).

(** [len(np.where(sample != 4.0)[0])] *)
Definition num_objects_in_sample (sample : list (list F)) : nat :=
  length (where_ne (of_int 4) sample).

(** [np.arange(start, upto)] on non-negative bounds. *)
Definition arange (start upto : nat) : list nat := seq start (upto - start).

(** One iteration of the loop of [retrieve_obj_indices]; the state is the
    list built so far and [last_num_objects], which the first iteration
    sets without reading it. *)
Definition obj_indices_step (idx : nat) (sample : list (list F))
    (st : list (list nat) * nat) : list (list nat) * nat :=
  let '(obj_indices, last_num_objects) := st in
  let n := num_objects_in_sample sample in
  if idx =? 0 then
    (obj_indices ++ [arange 0 n], n)
  else
    let start := last_num_objects in
    let upto := last_num_objects + n in
    (obj_indices ++ [arange start upto], upto).

Fixpoint obj_indices_loop (idx : nat) (batch : list (list (list F)))
    (st : list (list nat) * nat) : list (list nat) * nat :=
  match batch with
  | [] => st
  | sample :: rest => obj_indices_loop (S idx) rest (obj_indices_step idx sample st)
  end.

Definition retrieve_obj_indices (batch_cls : list (list (list F))) : list (list nat) :=
  fst (obj_indices_loop 0 batch_cls ([], 0)).

(** The loop of [DataFeeder.__call__] over the loaded labels: each sample
    is converted to float32 and encoded; class and box targets are
    collected in batch order. *)
Fixpoint batch_targets (batch_labels : list (list (list F)))
    (num_queries num_classes : Z)
  : pyresult (list (list (list F)) * list (list (list F))) :=
  match batch_labels with
  | [] => Ok ([], [])
  | labels :: rest =>
      let sample_labels := map (map to_float32) labels in
      '(sample_cls, sample_bbox) ← labels_to_targets sample_labels num_queries num_classes;
      '(batch_cls, batch_bbox) ← batch_targets rest num_queries num_classes;
      Ok (sample_cls :: batch_cls, sample_bbox :: batch_bbox)
  end.

(** [retrieve_obj_indices(np.array(batch_cls))]: the array of a list of
    class targets is three-dimensional; the array of the empty list is
    one-dimensional, and numba has no typing of the tracker for it. *)
Definition retrieve_obj_indices_of_list (batch_cls : list (list (list F)))
  : pyresult (list (list nat)) :=
  match batch_cls with
  | [] => Raise TypingError
  | _ :: _ => Ok (retrieve_obj_indices batch_cls)
  end.

(** The targets and object indices [DataFeeder.__call__] returns for the
    labels it loaded. *)
Definition call_targets (batch_labels : list (list (list F)))
    (num_queries num_classes : Z)
  : pyresult (list (list (list F)) * list (list (list F)) * list (list nat)) :=
  '(batch_cls, batch_bbox) ← batch_targets batch_labels num_queries num_classes;
  obj_indices ← retrieve_obj_indices_of_list batch_cls;
  Ok (batch_cls, batch_bbox, obj_indices).

(** The count the index tracker is asked for: the number of slots whose
    value differs from the sentinel [num_classes]. *)
Definition count_non_sentinel (num_classes : Z) (sample : list (list F)) : nat :=
  length (List.filter (fun x => fne x (of_int num_classes)) (concat sample)).

(** The ranges [[0,k_0)], [[k_0,k_0+k_1)], ... of a list of counts. *)
Fixpoint ranges_from (offset : nat) (counts : list nat) : list (list nat) :=
  match counts with
  | [] => []
  | k :: rest => seq offset k :: ranges_from (offset + k) rest
  end.

End Targets.

(** ** Loading labels *)

(** What [loadtxt] hands to [loadlabel]: an array with its shape and its
    elements in row-major order. *)
Record ndarray (F : Type) : Type := NdArray {
  shape : list nat;
  data : list F
}.

Arguments NdArray {F} shape data.
Arguments shape {F} n.
Arguments data {F} n.

Section LoadLabel.
Context {F : Type} `{FloatCmp F}.

Definition ndim (a : ndarray F) : nat := length (shape a).

Definition size (a : ndarray F) : nat := foldr Nat.mul 1 (shape a).

(** [a.reshape(new_shape)]: the element count must be that of the new
    shape. *)
Definition reshape (a : ndarray F) (new_shape : list nat) : pyresult (ndarray F) :=
  if length (data a) =? foldr Nat.mul 1 new_shape
  then Ok (NdArray new_shape (data a))
  else Raise ValueError.

(** [np.array(a, dtype=np.float32)] *)
Definition as_float32 (a : ndarray F) : ndarray F :=
  NdArray (shape a) (map to_float32 (data a)).

(** [DataFeeder.loadlabel], from the array that [loadtxt] parsed. *)
Definition loadlabel (labels : ndarray F) : pyresult (ndarray F) :=
  if ndim labels =? 1 then reshape labels [1; 5]
  else Ok (as_float32 labels).

(** The rows of a two-dimensional array, as [for row in a] yields them. *)
Definition rows_of (a : ndarray F) : list (list F) :=
  match shape a with
  | [n; m] => map (fun i => take m (drop (i * m) (data a))) (seq 0 n)
  | _ => []
  end.

End LoadLabel.

(** ** Positional encodings *)

Section Positional.
Context {F : Type} `{FloatArith F}.

(** [height, width, c = fm_shape] *)
Definition unpack3 (fm_shape : list nat) : pyresult (nat * nat * nat) :=
  match fm_shape with
  | [height; width; c] => Ok (height, width, c)
  | _ => Raise ValueError
  end.

(** [np.arange(start, stop)] on integers. *)
Definition np_arange (start stop : Z) : list Z :=
  seqZ start (stop - start).

(** [np.repeat(a, n)] on a one-dimensional array, and on axis 0. *)
Definition np_repeat {A : Type} (a : list A) (n : nat) : list A :=
  concat (map (replicate n) a).

(** [a.reshape(d0, d1)] of a one-dimensional array. *)
Definition reshape2 {A : Type} (a : list A) (d0 d1 : nat) : pyresult (list (list A)) :=
  if length a =? d0 * d1
  then Ok (map (fun i => take d1 (drop (i * d1) a)) (seq 0 d0))
  else Raise ValueError.

(** [a[0::2]] *)
Fixpoint step2 {A : Type} (a : list A) : list A :=
  match a with
  | [] => []
  | x :: rest => x :: match rest with
                      | [] => []
                      | _ :: rest' => step2 rest'
                      end
  end.

(** [a[:, :, 0::2]] and [a[:, :, 1::2]] *)
Definition even_channels (a : list (list (list F))) : list (list (list F)) :=
  map (map step2) a.

Definition uneven_channels (a : list (list (list F))) : list (list (list F)) :=
  map (map (fun ch => step2 (drop 1 ch))) a.

(** [np.sin(a)] on a three-dimensional array. *)
Definition np_sin (a : list (list (list F))) : list (list (list F)) :=
  map (map (map fsin)) a.

(** [np.concatenate([a, b], axis=2)] of arrays that agree on axes 0 and 1. *)
Definition concatenate_axis2 (a b : list (list (list F))) : list (list (list F)) :=
  zip_with (zip_with app) a b.

(** [10000 ** (2 * (div_term // 2) / num_pos_feats)] at one entry of
    [div_term]. *)
Definition div_entry (num_pos_feats j : Z) : F :=
  fpow (of_int 10000) (fdiv (of_int (2 * (j / 2))) (of_int num_pos_feats)).

(** [embed[:, :, None] / div_term] *)
Definition divide_by (embed : list (list Z)) (div_term : list F)
  : list (list (list F)) :=
  map (map (fun p => map (fun d => fdiv (of_int p) d) div_term)) embed.

(** [tf.reshape(t, (batch_size, height * width, t.shape[3]))] of a tensor
    of shape [(batch_size, height, width, channels)]: the two grid axes are
    merged in row-major order. *)
Definition tf_reshape_grid (t : list (list (list (list F)))) : list (list (list F)) :=
  map (fun grid => concat grid) t.

Definition create_positional_encodings (fm_shape : list nat) (num_pos_feats : Z)
    (batch_size : nat) : pyresult (list (list (list F))) :=
  '(height, width, c) ← unpack3 fm_shape;
  y_embed ← reshape2 (np_repeat (np_arange 1 (Z.of_nat height + 1)) width) height width;
  let x_embed := replicate height (np_arange 1 (Z.of_nat width + 1)) in
  let div_term := np_arange 0 num_pos_feats in
  let div_term := map (div_entry num_pos_feats) div_term in
  let pos_x := divide_by x_embed div_term in
  let pos_y := divide_by y_embed div_term in
  let pos_x_even := np_sin (even_channels pos_x) in
  let pos_x_uneven := np_sin (uneven_channels pos_x) in
  let pos_y_even := np_sin (even_channels pos_y) in
  let pos_y_uneven := np_sin (uneven_channels pos_y) in
  let pos_x := concatenate_axis2 pos_x_even pos_x_uneven in
  let pos_y := concatenate_axis2 pos_y_even pos_y_uneven in
  let positional_encodings := concatenate_axis2 pos_y pos_x in
  let positional_encodings := [positional_encodings] in
  let positional_encodings := np_repeat positional_encodings batch_size in
  let positional_encodings := map (map (map (map to_float32))) positional_encodings in
  Ok (tf_reshape_grid positional_encodings).

(** The positional encodings that [DataFeeder.__init__] stores. *)
Definition init_positional_encodings (fm_shape : list nat) (dim_transformer : Z)
    (batch_size : nat) : pyresult (list (list (list F))) :=
  create_positional_encodings fm_shape (dim_transformer / 2) batch_size.

(** The source channel of [div_term] that output channel [j] of a block of
    [n] channels carries: the even-numbered channels first, then the
    odd-numbered ones. *)
Definition source_channel (n j : nat) : nat :=
  if j <? Nat.div2 (S n) then 2 * j else 2 * (j - Nat.div2 (S n)) + 1.

(** The value [sin(p / div_term[j])], as the tensor holds it. *)
Definition encoding_value (num_pos_feats p j : Z) : F :=
  to_float32 (fsin (fdiv (of_int p) (div_entry num_pos_feats j))).

(** The channels that one axis contributes for position [p]. *)
Definition axis_channels (num_pos_feats p : Z) : list F :=
  let pos := map (fun d => fdiv (of_int p) d)
                 (map (div_entry num_pos_feats) (np_arange 0 num_pos_feats)) in
  map fsin (step2 pos) ++ map fsin (step2 (drop 1 pos)).

(** The row of grid cell [(h, w)] and the rows of the whole grid. *)
Definition encoding_row (num_pos_feats : Z) (h w : nat) : list F :=
  map to_float32 (axis_channels num_pos_feats (1 + Z.of_nat h)
                    ++ axis_channels num_pos_feats (1 + Z.of_nat w)).

Definition encoding_grid (height width : nat) (num_pos_feats : Z) : list (list F) :=
  concat (map (fun h => map (encoding_row num_pos_feats h) (seq 0 width))
              (seq 0 height)).

End Positional.


(** ** File names *)

(** ["{}/images/{}.jpg".format(self.path, uuid)] in [loadimage] *)
Definition image_path (path uuid : string) : string :=
  (path +:+ "/images/" +:+ uuid +:+ ".jpg")%string.

(** ["{}/labels/{}.txt".format(self.path, uuid)] in [loadlabel] *)
Definition label_path (path uuid : string) : string :=
  (path +:+ "/labels/" +:+ uuid +:+ ".txt")%string.

(** [image_path = "{}/{}".format(storage_path, "images")] and the file
    ["{}/{}".format(image_path, name)] that [get_image_information] in
    [train.py] opens for a listed file name. *)
Definition images_directory (storage_path : string) : string :=
  (storage_path +:+ "/" +:+ "images")%string.

Definition listed_image_path (storage_path name : string) : string :=
  (images_directory storage_path +:+ "/" +:+ name)%string.

(** ** Concrete inputs and claimed outcomes *)


(** The labels of Example 1 of the specification. *)
Definition lbl (c : Z) (x y w h : Q) : list Q := [inject_Z c; x; y; w; h].

Definition example_labels : list (list Q) :=
  [lbl 0 (1#2) (1#2) (1#5) (1#5); lbl 1 (1#10) (1#10) (1#20) (1#20)].

(** A batch of three samples with one, three and one object. *)
Definition example_batch : list (list (list Q)) :=
  [ [lbl 0 (1#2) (1#2) (1#5) (1#5)];
    [lbl 0 (1#4) (1#4) (1#10) (1#10); lbl 1 (1#2) (1#2) (1#10) (1#10);
     lbl 1 (3#4) (3#4) (1#10) (1#10)];
    [lbl 1 (1#2) (1#2) (1#2) (1#2)] ].

(** * Properties *)

(** ** The monad of outcomes *)

Lemma bind_Ok {A B : Type} (a : A) (k : A -> pyresult B) :
  (Ok a ≫= k) = k a.
Proof. reflexivity. Qed.

Lemma bind_Raise {A B : Type} (e : exn) (k : A -> pyresult B) :
  (Raise e ≫= k) = Raise e.
Proof. reflexivity. Qed.

(** Reduce the binds whose first computation has returned or raised. *)
Ltac run_bind := unfold mbind, pyresult_bind; cbn beta iota.

(** ** Label targets *)

Section TargetsFacts.
Context {F : Type} `{FloatCmp F}.

Lemma unpack5_length (row : list F) :
  length row = 5 ->
  exists c x y w h, row = [c; x; y; w; h].
Proof.
  intros Hlen.
  do 5 (destruct row as [|? row]; [discriminate Hlen|]).
  destruct row; [|discriminate Hlen]. eauto 6.
Qed.

Lemma take_S_insert {A : Type} (l : list A) (i : nat) (x : A) :
  i < length l -> take (S i) (<[i := x]> l) = take i l ++ [x].
Proof.
  intros Hlt.
  rewrite (take_S_r _ _ x) by (apply list_lookup_insert_eq; exact Hlt).
  rewrite take_insert_ge by lia. reflexivity.
Qed.

(** The loop stores the labels into consecutive slots from [idx] on, as
    far as the slots reach, and leaves every other slot as it was; labels
    beyond the last slot are stored nowhere. *)
Lemma targets_loop_stores (sample_labels : list (list F)) :
  forall (idx : nat) (sample_cls sample_bbox : list (list F)),
    Forall (fun row => length row = 5) sample_labels ->
    length sample_bbox = length sample_cls ->
    targets_loop idx sample_labels sample_cls sample_bbox =
      Ok (take idx sample_cls
            ++ map (take 1) (take (length sample_cls - idx) sample_labels)
            ++ drop (idx + length sample_labels) sample_cls,
          take idx sample_bbox
            ++ map (drop 1) (take (length sample_cls - idx) sample_labels)
            ++ drop (idx + length sample_labels) sample_bbox).
Proof.
  induction sample_labels as [|row rest IH]; intros idx cls bbox Hrows Hlen.
  - cbn [targets_loop length]. rewrite Nat.add_0_r, take_nil. cbn [map app].
    rewrite !take_drop. reflexivity.
  - inversion Hrows as [|? ? Hrow Hrest]; subst.
    destruct (unpack5_length row Hrow) as (c & x & y & w & h & ->).
    cbn [targets_loop unpack5]. run_bind. unfold setitem.
    rewrite IH by (try assumption; rewrite !length_insert; exact Hlen).
    rewrite !length_insert. cbn [length].
    replace (S idx + length rest) with (idx + S (length rest)) by lia.
    destruct (Nat.lt_ge_cases idx (length cls)) as [Hin|Hout].
    + rewrite !take_S_insert by lia. rewrite !drop_insert_lt by lia.
      replace (length cls - idx) with (S (length cls - S idx)) by lia.
      cbn [take map drop]. rewrite <- !app_assoc. reflexivity.
    + rewrite !list_insert_ge by lia.
      replace (length cls - S idx) with 0 by lia.
      replace (length cls - idx) with 0 by lia.
      rewrite !take_0, !take_ge by lia. reflexivity.
Qed.

Lemma targets_loop_fits (sample_labels : list (list F)) :
  forall (idx : nat) (sample_cls sample_bbox : list (list F)),
    Forall (fun row => length row = 5) sample_labels ->
    length sample_bbox = length sample_cls ->
    idx + length sample_labels <= length sample_cls ->
    targets_loop idx sample_labels sample_cls sample_bbox =
      Ok (take idx sample_cls ++ map (take 1) sample_labels
            ++ drop (idx + length sample_labels) sample_cls,
          take idx sample_bbox ++ map (drop 1) sample_labels
            ++ drop (idx + length sample_labels) sample_bbox).
Proof.
  intros idx cls bbox Hrows Hlen Hfit.
  rewrite targets_loop_stores by assumption.
  rewrite (take_ge sample_labels) by lia. reflexivity.
Qed.

Lemma np_full_nonneg (rows : Z) (cols : nat) (v : F) :
  (0 <= rows)%Z ->
  np_full rows cols v = Ok (replicate (Z.to_nat rows) (replicate cols v)).
Proof.
  intros Hrows. unfold np_full.
  destruct (Z.ltb_spec rows 0); [lia | reflexivity].
Qed.

(** The targets of a sample that fits: the labels in order, then padding. *)
Lemma labels_to_targets_fits (sample_labels : list (list F))
    (num_queries num_classes : Z) :
  Forall (fun row => length row = 5) sample_labels ->
  (Z.of_nat (length sample_labels) <= num_queries)%Z ->
  labels_to_targets sample_labels num_queries num_classes =
    Ok (map (take 1) sample_labels
          ++ replicate (Z.to_nat num_queries - length sample_labels)
               [of_int num_classes],
        map (drop 1) sample_labels
          ++ replicate (Z.to_nat num_queries - length sample_labels)
               (replicate 4 (of_int num_classes))).
Proof.
  intros Hrows Hfit. unfold labels_to_targets.
  rewrite !np_full_nonneg by lia. run_bind.
  rewrite targets_loop_fits by (try assumption; rewrite !length_replicate; lia).
  rewrite !take_0, !drop_replicate. reflexivity.
Qed.

(** C2: a sample of [k <= Q] labels of five columns is encoded into [Q]
    class rows and [Q] box rows of four columns; slot [idx < k] holds the
    class and the box of label [idx], in input order, and every slot from
    [k] on holds the sentinel [num_classes] in all its entries. *)
Theorem labels_to_targets_layout (sample_labels : list (list F))
    (num_queries num_classes : Z) :
  Forall (fun row => length row = 5) sample_labels ->
  (Z.of_nat (length sample_labels) <= num_queries)%Z ->
  exists sample_cls sample_bbox,
    labels_to_targets sample_labels num_queries num_classes
      = Ok (sample_cls, sample_bbox) /\
    length sample_cls = Z.to_nat num_queries /\
    length sample_bbox = Z.to_nat num_queries /\
    Forall (fun row => length row = 4) sample_bbox /\
    (forall idx c x y w h,
        sample_labels !! idx = Some [c; x; y; w; h] ->
        sample_cls !! idx = Some [c] /\ sample_bbox !! idx = Some [x; y; w; h]) /\
    (forall idx,
        length sample_labels <= idx < Z.to_nat num_queries ->
        sample_cls !! idx = Some [of_int num_classes] /\
        sample_bbox !! idx = Some [of_int num_classes; of_int num_classes;
                                   of_int num_classes; of_int num_classes]).
Proof.
  intros Hrows Hfit. eexists _, _.
  split; [apply labels_to_targets_fits; assumption|].
  split; [rewrite length_app, length_map, length_replicate; lia|].
  split; [rewrite length_app, length_map, length_replicate; lia|].
  split.
  - apply Forall_app. split.
    + apply Forall_fmap. eapply Forall_impl; [exact Hrows|].
      intros row Hrow. unfold compose. cbv beta in *. rewrite length_drop. lia.
    + apply Forall_replicate. reflexivity.
  - split.
    + intros idx c x y w h Hidx.
      assert (idx < length sample_labels) by (eapply lookup_lt_Some; eassumption).
      rewrite !lookup_app_l by (rewrite length_map; assumption).
      rewrite !list_lookup_fmap, Hidx. split; reflexivity.
    + intros idx Hidx.
      rewrite !lookup_app_r by (rewrite length_map; lia).
      rewrite !length_map, !lookup_replicate_2 by lia. split; reflexivity.
Qed.


End TargetsFacts.

Lemma labels_to_targets_layout_witness :
  exists sample_cls sample_bbox,
    labels_to_targets example_labels 5 2 = Ok (sample_cls, sample_bbox) /\
    length sample_cls = Z.to_nat 5 /\
    length sample_bbox = Z.to_nat 5 /\
    Forall (fun row => length row = 4) sample_bbox /\
    (forall idx c x y w h,
        example_labels !! idx = Some [c; x; y; w; h] ->
        sample_cls !! idx = Some [c] /\ sample_bbox !! idx = Some [x; y; w; h]) /\
    (forall idx,
        length example_labels <= idx < Z.to_nat 5 ->
        sample_cls !! idx = Some [of_int 2] /\
        sample_bbox !! idx = Some [of_int 2; of_int 2; of_int 2; of_int 2]).
Proof.
  apply (labels_to_targets_layout example_labels 5 2).
  - repeat constructor.
  - simpl. lia.
Defined.



(** ** Object indices *)

Section TrackerFacts.
Context {F : Type} `{FloatCmp F}.

Lemma length_where_ne_from (v : F) (sample : list (list F)) :
  forall g : nat -> nat,
    length (concat (imap (fun i row =>
              replicate (length (List.filter (fun x => fne x v) row)) (g i)) sample))
    = length (List.filter (fun x => fne x v) (concat sample)).
Proof.
  induction sample as [|row rest IH]; intros g; [reflexivity|].
  cbn [imap concat]. rewrite List.filter_app, !length_app, length_replicate.
  f_equal. apply (IH (fun i => g (S i))).
Qed.

(** The tracker counts the slots that differ from the literal [4.0]. *)
Lemma num_objects_in_sample_counts (sample : list (list F)) :
  num_objects_in_sample sample = count_non_sentinel 4 sample.
Proof.
  unfold num_objects_in_sample, where_ne, count_non_sentinel.
  apply (length_where_ne_from (of_int 4) sample (fun i => i)).
Qed.

Lemma arange_from (start n : nat) : arange start (start + n) = seq start n.
Proof. unfold arange. f_equal. lia. Qed.

Lemma obj_indices_step_offset (idx : nat) (sample : list (list F))
    (obj_indices : list (list nat)) (last_num_objects : nat) :
  let offset := if idx =? 0 then 0 else last_num_objects in
  obj_indices_step idx sample (obj_indices, last_num_objects) =
    (obj_indices ++ [seq offset (num_objects_in_sample sample)],
     offset + num_objects_in_sample sample).
Proof.
  unfold obj_indices_step. destruct (idx =? 0); cbn zeta.
  - rewrite <- (arange_from 0). reflexivity.
  - rewrite arange_from. reflexivity.
Qed.

Lemma obj_indices_loop_ranges (batch : list (list (list F))) :
  forall (idx : nat) (obj_indices : list (list nat)) (last_num_objects : nat),
    fst (obj_indices_loop idx batch (obj_indices, last_num_objects)) =
      obj_indices ++ ranges_from (if idx =? 0 then 0 else last_num_objects)
                       (map num_objects_in_sample batch).
Proof.
  induction batch as [|sample rest IH]; intros idx acc last.
  - simpl. rewrite app_nil_r. reflexivity.
  - cbn [obj_indices_loop]. rewrite obj_indices_step_offset. cbn zeta.
    rewrite IH. cbn [Nat.eqb map ranges_from]. rewrite <- app_assoc. reflexivity.
Qed.

(** The emitted ranges are those of the counts the tracker takes. *)
Lemma retrieve_obj_indices_ranges (batch_cls : list (list (list F))) :
  retrieve_obj_indices batch_cls
    = ranges_from 0 (map num_objects_in_sample batch_cls).
Proof.
  unfold retrieve_obj_indices. rewrite obj_indices_loop_ranges. reflexivity.
Qed.

Lemma concat_ranges_from (counts : list nat) :
  forall offset, concat (ranges_from offset counts) = seq offset (sum_list counts).
Proof.
  induction counts as [|k rest IH]; intros offset; [reflexivity|].
  cbn [ranges_from concat sum_list sum_list_with]. rewrite IH, <- seq_app. reflexivity.
Qed.

End TrackerFacts.

(** C1, on the code: the count of [retrieve_obj_indices] is taken against
    the literal [4.0] whatever [num_classes] is.  A sample with one object,
    encoded with [num_queries = 3] and [num_classes = 2], has one slot that
    differs from the sentinel, and the tracker counts three. *)
Theorem retrieve_obj_indices_literal_sentinel :
  (forall sample : list (list Q),
      num_objects_in_sample sample = count_non_sentinel 4 sample) /\
  exists batch_cls batch_bbox,
    call_targets [[lbl 0 (1#2) (1#2) (1#5) (1#5)]] 3 2
      = Ok (batch_cls, batch_bbox, [[0; 1; 2]]) /\
    batch_cls = [[[0%Q]; [2%Q]; [2%Q]]] /\
    map (count_non_sentinel 2) batch_cls = [1] /\
    map num_objects_in_sample batch_cls = [3].
Proof.
  split; [apply num_objects_in_sample_counts|].
  eexists _, _. split; [vm_compute; reflexivity|].
  split; [reflexivity|]. split; reflexivity.
Qed.

(** C3, on the code: for the batch with one, three and one object, encoded
    with [num_queries = 3] and [num_classes = 2], the per-sample counts of
    non-sentinel slots are 1, 3 and 1, whose ranges are [[0]], [[1,2,3]],
    [[4]]; the tracker emits [[0,1,2]], [[3,4,5]], [[6,7,8]].  With
    [num_classes = 4] it emits the ranges of the counts. *)
Theorem retrieve_obj_indices_example_batch :
  (exists batch_cls batch_bbox,
     call_targets example_batch 3 2
       = Ok (batch_cls, batch_bbox, [[0; 1; 2]; [3; 4; 5]; [6; 7; 8]]) /\
     map (count_non_sentinel 2) batch_cls = [1; 3; 1] /\
     ranges_from 0 (map (count_non_sentinel 2) batch_cls) = [[0]; [1; 2; 3]; [4]]) /\
  (exists batch_cls batch_bbox,
     call_targets example_batch 3 4
       = Ok (batch_cls, batch_bbox, [[0]; [1; 2; 3]; [4]]) /\
     map (count_non_sentinel 4) batch_cls = [1; 3; 1]).
Proof.
  split; eexists _, _; (split; [vm_compute; reflexivity|]); repeat split; reflexivity.
Qed.

(** ** Lists as arrays *)

Section ArrayFacts.
Context {A : Type}.

Lemma replicate_as_map (n : nat) (x : A) :
  replicate n x = map (fun _ => x) (seq 0 n).
Proof.
  apply list_eq. intros i. rewrite list_lookup_fmap.
  destruct (Nat.lt_ge_cases i n) as [Hlt|Hge].
  - rewrite lookup_replicate_2, lookup_seq_lt by assumption. reflexivity.
  - rewrite (proj1 (lookup_replicate_None n x i)), lookup_seq_ge by assumption.
    reflexivity.
Qed.

(** Row [i] of the reshaped [np.repeat(a, n)] is [n] copies of [a[i]]. *)
Lemma chunk_np_repeat (n : nat) (a : list A) :
  forall (i : nat) (x : A),
    a !! i = Some x ->
    take n (drop (i * n) (np_repeat a n)) = replicate n x.
Proof.
  unfold np_repeat.
  induction a as [|y rest IH]; intros i x Hi; [discriminate Hi|].
  cbn [map concat]. destruct i as [|i].
  - injection Hi as ->. cbn [Nat.mul drop].
    apply take_app_length'. rewrite length_replicate. reflexivity.
  - cbn [lookup list_lookup] in Hi. cbn [Nat.mul].
    rewrite drop_app_add' by (rewrite length_replicate; reflexivity).
    apply IH. exact Hi.
Qed.

Lemma length_np_repeat (n : nat) (a : list A) :
  length (np_repeat a n) = length a * n.
Proof.
  unfold np_repeat. induction a as [|y rest IH]; [reflexivity|].
  cbn [map concat length]. rewrite length_app, length_replicate, IH. lia.
Qed.

Lemma np_repeat_singleton (n : nat) (x : A) : np_repeat [x] n = replicate n x.
Proof. unfold np_repeat. cbn. apply app_nil_r. Qed.

Lemma step2_lookup (j : nat) :
  forall a : list A, step2 a !! j = a !! (2 * j).
Proof.
  induction j as [|j IH]; intros [|x [|y a]]; try reflexivity.
  replace (2 * S j) with (S (S (2 * j))) by lia.
  cbn [step2 lookup list_lookup]. apply IH.
Qed.

Lemma step2_length_pair (a : list A) :
  length (step2 a) = Nat.div2 (S (length a)) /\
  forall x, length (step2 (x :: a)) = Nat.div2 (S (S (length a))).
Proof.
  induction a as [|y a [IH1 IH2]].
  - split; reflexivity.
  - split; [apply IH2|]. intros x. cbn [step2 length]. rewrite IH1. reflexivity.
Qed.

Lemma length_step2 (a : list A) : length (step2 a) = Nat.div2 (S (length a)).
Proof. apply step2_length_pair. Qed.

(** Element [i * n + j] of the concatenation of rows of length [n]. *)
Lemma lookup_concat_rows (n : nat) (rows : list (list A)) :
  Forall (fun row => length row = n) rows ->
  forall (i j : nat) (row : list A),
    rows !! i = Some row -> j < n ->
    concat rows !! (i * n + j) = row !! j.
Proof.
  intros Hrows. induction Hrows as [|r rest Hr Hrest IH]; intros i j row Hi Hj.
  - discriminate Hi.
  - cbn [concat]. destruct i as [|i].
    + injection Hi as ->. cbn [Nat.mul Nat.add].
      apply lookup_app_l. lia.
    + cbn [lookup list_lookup] in Hi.
      rewrite lookup_app_r by (cbn [Nat.mul]; lia).
      replace (S i * n + j - length r) with (i * n + j) by (cbn [Nat.mul]; lia).
      apply IH; assumption.
Qed.

Lemma length_concat_rows (n : nat) (rows : list (list A)) :
  Forall (fun row => length row = n) rows ->
  length (concat rows) = length rows * n.
Proof.
  intros Hrows. induction Hrows as [|r rest Hr Hrest IH]; [reflexivity|].
  cbn [concat length Nat.mul]. rewrite length_app, IH, Hr. reflexivity.
Qed.

End ArrayFacts.

Lemma div2_halves (n : nat) : Nat.div2 (S n) + Nat.div2 n = n.
Proof.
  assert (Nat.div2 (S n) + Nat.div2 n = n /\
          Nat.div2 (S (S n)) + Nat.div2 (S n) = S n) as [Hn _].
  { induction n as [|n [IH1 IH2]]; [split; reflexivity|].
    split; [exact IH2|]. cbn [Nat.div2] in *. lia. }
  exact Hn.
Qed.

Lemma div2_upper_half (n : nat) : n <= 2 * Nat.div2 (S n) <= S n.
Proof.
  assert (n <= 2 * Nat.div2 (S n) <= S n /\
          S n <= 2 * Nat.div2 (S (S n)) <= S (S n)) as [Hn _].
  { induction n as [|n [IH1 IH2]]; [cbn; lia|].
    split; [exact IH2|]. cbn [Nat.div2] in *. lia. }
  exact Hn.
Qed.

Lemma div2_lower_half (n j : nat) :
  j < Nat.div2 n -> j < n /\ Nat.div2 (S n) + j < n.
Proof.
  intros Hj. pose proof (div2_halves n) as Hhalves.
  split.
  - rewrite <- Hhalves. apply Nat.lt_lt_add_l. exact Hj.
  - rewrite <- Hhalves at 2. apply Nat.add_lt_mono_l. exact Hj.
Qed.

(** ** Positional encodings *)

Section PositionalFacts.
Context {F : Type} `{FloatArith F}.

Lemma np_arange_from_1 (n : nat) :
  np_arange 1 (Z.of_nat n + 1) = map (fun i => (1 + Z.of_nat i)%Z) (seq 0 n).
Proof.
  unfold np_arange, seqZ.
  replace (Z.to_nat (Z.of_nat n + 1 - 1)) with n by lia.
  apply list_fmap_ext. intros _ i _. lia.
Qed.

(** The reshape of [y_embed] always succeeds: row [h] is [width] copies of
    [h + 1]. *)
Lemma y_embed_rows (height width : nat) :
  reshape2 (np_repeat (np_arange 1 (Z.of_nat height + 1)) width) height width
    = Ok (map (fun h => map (fun _ => (1 + Z.of_nat h)%Z) (seq 0 width))
              (seq 0 height)).
Proof.
  unfold reshape2. rewrite length_np_repeat, np_arange_from_1, length_map, length_seq.
  rewrite Nat.eqb_refl. f_equal.
  apply list_fmap_ext. intros i h Hh.
  apply lookup_seq in Hh as [-> Hlt]. cbn [Nat.add].
  rewrite <- replicate_as_map. apply chunk_np_repeat.
  rewrite list_lookup_fmap, lookup_seq_lt by assumption. reflexivity.
Qed.

Lemma x_embed_rows (height width : nat) :
  replicate height (np_arange 1 (Z.of_nat width + 1))
    = map (fun _ => map (fun w => (1 + Z.of_nat w)%Z) (seq 0 width)) (seq 0 height).
Proof. rewrite np_arange_from_1. apply replicate_as_map. Qed.

(** The channels of one axis of one cell, as the slicing, [np.sin] and the
    concatenation of the even and uneven parts produce them. *)
Lemma axis_rows (num_pos_feats : Z) (embed : list (list Z)) :
  let div_term := map (div_entry num_pos_feats) (np_arange 0 num_pos_feats) in
  let pos := divide_by embed div_term in
  concatenate_axis2 (np_sin (even_channels pos)) (np_sin (uneven_channels pos))
    = map (map (axis_channels num_pos_feats)) embed.
Proof.
  cbv zeta. unfold concatenate_axis2, np_sin, even_channels, uneven_channels, divide_by.
  rewrite <- !list_fmap_compose.
  rewrite zip_with_fmap_l, zip_with_fmap_r, zip_with_diag.
  apply list_fmap_ext. intros _ row _. unfold compose.
  rewrite <- !list_fmap_compose.
  rewrite zip_with_fmap_l, zip_with_fmap_r, zip_with_diag.
  apply list_fmap_ext. intros _ p _. reflexivity.
Qed.

(** The tensor in closed form: [batch_size] copies of the rows of the
    grid. *)
Lemma create_positional_encodings_grid (height width c : nat)
    (num_pos_feats : Z) (batch_size : nat) :
  create_positional_encodings [height; width; c] num_pos_feats batch_size
    = Ok (replicate batch_size (encoding_grid height width num_pos_feats)).
Proof.
  unfold create_positional_encodings. cbn [unpack3]. run_bind.
  rewrite y_embed_rows. cbn beta iota. rewrite x_embed_rows.
  f_equal. rewrite !axis_rows.
  unfold concatenate_axis2, tf_reshape_grid.
  rewrite <- !list_fmap_compose.
  rewrite zip_with_fmap_l, zip_with_fmap_r, zip_with_diag.
  rewrite np_repeat_singleton, !fmap_replicate. f_equal.
  unfold encoding_grid, compose. f_equal.
  rewrite <- list_fmap_compose.
  apply list_fmap_ext. intros _ h _. unfold compose.
  rewrite <- !list_fmap_compose.
  rewrite zip_with_fmap_l, zip_with_fmap_r, zip_with_diag.
  rewrite <- list_fmap_compose.
  apply list_fmap_ext. intros _ w _. reflexivity.
Qed.

Lemma lookup_div_positions (num_pos_feats p : Z) (k : nat) :
  k < Z.to_nat num_pos_feats ->
  map (fun d => fdiv (of_int p) d)
      (map (div_entry num_pos_feats) (np_arange 0 num_pos_feats)) !! k
    = Some (fdiv (of_int p) (div_entry num_pos_feats (Z.of_nat k))).
Proof.
  intros Hk. unfold np_arange.
  rewrite !list_lookup_fmap, lookup_seqZ_lt by lia. reflexivity.
Qed.

Lemma length_div_positions (num_pos_feats p : Z) :
  length (map (fun d => fdiv (of_int p) d)
              (map (div_entry num_pos_feats) (np_arange 0 num_pos_feats)))
    = Z.to_nat num_pos_feats.
Proof.
  unfold np_arange. rewrite !length_map, length_seqZ. f_equal. lia.
Qed.

Lemma length_axis_channels (num_pos_feats p : Z) :
  length (axis_channels num_pos_feats p) = Z.to_nat num_pos_feats.
Proof.
  unfold axis_channels. cbv zeta.
  rewrite length_app, !length_map, !length_step2, length_drop, length_div_positions.
  set (n := Z.to_nat num_pos_feats).
  destruct n as [|n]; [reflexivity|].
  replace (S (S n - 1)) with (S n) by lia. apply (div2_halves (S n)).
Qed.

(** Output channel [j] of one axis carries source channel
    [source_channel n j] of [div_term]. *)
Lemma lookup_axis_channels (num_pos_feats p : Z) (j : nat) :
  j < Z.to_nat num_pos_feats ->
  axis_channels num_pos_feats p !! j
    = Some (fsin (fdiv (of_int p)
              (div_entry num_pos_feats
                 (Z.of_nat (source_channel (Z.to_nat num_pos_feats) j))))).
Proof.
  intros Hj. unfold axis_channels, source_channel. cbv zeta.
  set (n := Z.to_nat num_pos_feats) in *.
  pose proof (div2_upper_half n) as Hhalf.
  destruct (Nat.ltb_spec j (Nat.div2 (S n))) as [Hlt|Hge].
  - rewrite lookup_app_l
      by (rewrite length_map, length_step2, length_div_positions; exact Hlt).
    rewrite list_lookup_fmap, step2_lookup.
    rewrite lookup_div_positions by (fold n; lia). reflexivity.
  - rewrite lookup_app_r
      by (rewrite length_map, length_step2, length_div_positions; exact Hge).
    rewrite length_map, length_step2, length_div_positions. fold n.
    rewrite list_lookup_fmap, step2_lookup, lookup_drop.
    rewrite lookup_div_positions by (fold n; lia).
    rewrite (Nat.add_comm 1). reflexivity.
Qed.

Lemma length_encoding_row (num_pos_feats : Z) (h w : nat) :
  length (encoding_row num_pos_feats h w) = 2 * Z.to_nat num_pos_feats.
Proof.
  unfold encoding_row. rewrite length_map, length_app, !length_axis_channels. lia.
Qed.

Lemma lookup_encoding_row_y (num_pos_feats : Z) (h w j : nat) :
  j < Z.to_nat num_pos_feats ->
  encoding_row num_pos_feats h w !! j
    = Some (encoding_value num_pos_feats (Z.of_nat h + 1)
              (Z.of_nat (source_channel (Z.to_nat num_pos_feats) j))).
Proof.
  intros Hj. unfold encoding_row, encoding_value.
  rewrite list_lookup_fmap, lookup_app_l by (rewrite length_axis_channels; exact Hj).
  rewrite lookup_axis_channels by exact Hj.
  rewrite (Z.add_comm 1). reflexivity.
Qed.

Lemma lookup_encoding_row_x (num_pos_feats : Z) (h w j : nat) :
  j < Z.to_nat num_pos_feats ->
  encoding_row num_pos_feats h w !! (Z.to_nat num_pos_feats + j)
    = Some (encoding_value num_pos_feats (Z.of_nat w + 1)
              (Z.of_nat (source_channel (Z.to_nat num_pos_feats) j))).
Proof.
  intros Hj. unfold encoding_row, encoding_value.
  rewrite list_lookup_fmap, lookup_app_r by (rewrite length_axis_channels; lia).
  rewrite length_axis_channels.
  replace (Z.to_nat num_pos_feats + j - Z.to_nat num_pos_feats) with j by lia.
  rewrite lookup_axis_channels by exact Hj.
  rewrite (Z.add_comm 1). reflexivity.
Qed.

Lemma encoding_grid_rows_uniform (height width : nat) (num_pos_feats : Z) :
  Forall (fun cells : list (list F) => length cells = width)
    (map (fun h => map (encoding_row num_pos_feats h) (seq 0 width)) (seq 0 height)).
Proof.
  apply Forall_fmap, Forall_forall. intros h _. unfold compose.
  rewrite length_map, length_seq. reflexivity.
Qed.

(** Row [h * width + w] of the flattened grid is the row of cell [(h, w)]. *)
Lemma lookup_encoding_grid (height width : nat) (num_pos_feats : Z) (h w : nat) :
  h < height -> w < width ->
  encoding_grid height width num_pos_feats !! (h * width + w)
    = Some (encoding_row num_pos_feats h w).
Proof.
  intros Hh Hw. unfold encoding_grid.
  rewrite (lookup_concat_rows width _ (encoding_grid_rows_uniform _ _ _) h w
             (map (encoding_row num_pos_feats h) (seq 0 width))).
  - rewrite list_lookup_fmap, lookup_seq_lt by assumption. reflexivity.
  - rewrite list_lookup_fmap, lookup_seq_lt by assumption. reflexivity.
  - assumption.
Qed.

Lemma length_encoding_grid (height width : nat) (num_pos_feats : Z) :
  length (encoding_grid height width num_pos_feats) = height * width.
Proof.
  unfold encoding_grid.
  rewrite (length_concat_rows width _ (encoding_grid_rows_uniform _ _ _)).
  rewrite length_map, length_seq. reflexivity.
Qed.

End PositionalFacts.

(** C4, as the code has it: in the row of cell [(h, w)], at flattened index
    [h * W + w] of every batch slice, channel [j < F] is
    [sin((h+1) / div(s))] and channel [F + j] is [sin((w+1) / div(s))],
    converted to float32, where [s = source_channel F j]: the even-numbered
    channels of [div_term] come first and the odd-numbered ones after
    them. *)
Theorem positional_encodings_channels {F : Type} `{FloatArith F}
    (height width c : nat) (num_pos_feats : Z) (batch_size b h w j : nat) :
  b < batch_size -> h < height -> w < width -> j < Z.to_nat num_pos_feats ->
  exists t slice row,
    create_positional_encodings [height; width; c] num_pos_feats batch_size = Ok t /\
    t !! b = Some slice /\
    slice !! (h * width + w) = Some row /\
    row !! j = Some (encoding_value num_pos_feats (Z.of_nat h + 1)
                       (Z.of_nat (source_channel (Z.to_nat num_pos_feats) j))) /\
    row !! (Z.to_nat num_pos_feats + j)
      = Some (encoding_value num_pos_feats (Z.of_nat w + 1)
                (Z.of_nat (source_channel (Z.to_nat num_pos_feats) j))).
Proof.
  intros Hb Hh Hw Hj. eexists _, _, _.
  split; [apply create_positional_encodings_grid|].
  split; [apply lookup_replicate_2; exact Hb|].
  split; [apply lookup_encoding_grid; assumption|].
  split; [apply lookup_encoding_row_y | apply lookup_encoding_row_x]; exact Hj.
Qed.

Lemma positional_encodings_channels_witness :
  exists t slice row,
    create_positional_encodings (F:=R) [2; 3; 7] 4 2 = Ok t /\
    t !! 1 = Some slice /\
    slice !! (1 * 3 + 2) = Some row /\
    row !! 1 = Some (encoding_value 4 (Z.of_nat 1 + 1)
                       (Z.of_nat (source_channel (Z.to_nat 4) 1))) /\
    row !! (Z.to_nat 4 + 1)
      = Some (encoding_value 4 (Z.of_nat 2 + 1)
                (Z.of_nat (source_channel (Z.to_nat 4) 1))).
Proof.
  apply (positional_encodings_channels (F:=R) 2 3 7 4 2 1 1 2 1); simpl; lia.
Defined.

Lemma Rpower_10000_half : Rpower 10000 (2 / 4) = 100%R.
Proof.
  replace (2 / 4)%R with (/ 2)%R by lra.
  rewrite Rpower_sqrt by lra.
  replace 10000%R with (100 * 100)%R by lra.
  apply sqrt_square. lra.
Qed.

Lemma sin_hundredth_lt_sin_1 : (sin (1 / 100) < sin 1)%R.
Proof.
  pose proof PI2_1 as Hpi.
  apply sin_increasing_1; lra.
Qed.

(** In the exact reading, source channels 1 and 2 of four differ at
    position 1. *)
Lemma encoding_value_R_differs :
  encoding_value (F:=R) 4 1 2 <> encoding_value (F:=R) 4 1 1.
Proof.
  unfold encoding_value, div_entry.
  cbn [to_float32 fsin fdiv fpow of_int R_FloatCmp R_FloatArith].
  change (2 * (2 / 2))%Z with 2%Z. change (2 * (1 / 2))%Z with 0%Z.
  rewrite Rpower_10000_half.
  replace (0 / 4)%R with 0%R by lra. rewrite Rpower_O by lra.
  replace (1 / 1)%R with 1%R by lra.
  pose proof sin_hundredth_lt_sin_1. lra.
Qed.

(** C4 as stated fails: with [F = 4], channel 1 of the cell [(0, 0)] is
    not [sin((0+1) / div(1))]. *)
Lemma positional_encodings_channel_order_counterexample :
  ~ (exists t slice row,
       create_positional_encodings (F:=R) [1; 1; 3] 4 1 = Ok t /\
       t !! 0 = Some slice /\
       slice !! (0 * 1 + 0) = Some row /\
       row !! 1 = Some (encoding_value 4 (Z.of_nat 0 + 1) 1)).
Proof.
  intros (t & slice & row & Ht & Hslice & Hrow & Hch).
  rewrite create_positional_encodings_grid in Ht. injection Ht as <-.
  injection Hslice as <-.
  rewrite lookup_encoding_grid in Hrow by lia. injection Hrow as <-.
  rewrite (lookup_encoding_row_y 4 0 0 1) in Hch by (simpl; lia).
  injection Hch as Hch. apply encoding_value_R_differs. exact Hch.
Qed.

(** C5: the tensor depends on [(H, W, F)] only.  Any two calls on the same
    [(H, W, F)], whatever the third shape component and the batch sizes,
    succeed, and every batch slice of either result is the same list of
    rows, the grid of [(H, W, F)]; in particular slice [b] equals slice
    [0].  No label data is among the arguments. *)
Theorem positional_encodings_slices_agree {F : Type} `{FloatArith F}
    (height width c c' : nat) (num_pos_feats : Z) (batch_size batch_size' b b' : nat) :
  b < batch_size -> b' < batch_size' ->
  exists t t',
    create_positional_encodings [height; width; c] num_pos_feats batch_size = Ok t /\
    create_positional_encodings [height; width; c'] num_pos_feats batch_size' = Ok t' /\
    t !! b = Some (encoding_grid height width num_pos_feats) /\
    t' !! b' = Some (encoding_grid height width num_pos_feats) /\
    t !! b = t !! 0 /\
    (batch_size = batch_size' -> t = t').
Proof.
  intros Hb Hb'. eexists _, _.
  split; [apply create_positional_encodings_grid|].
  split; [apply create_positional_encodings_grid|].
  rewrite !lookup_replicate_2 by lia.
  repeat split. intros ->. reflexivity.
Qed.

Lemma positional_encodings_slices_agree_witness :
  exists t t',
    create_positional_encodings (F:=R) [2; 2; 3] 2 3 = Ok t /\
    create_positional_encodings (F:=R) [2; 2; 64] 2 3 = Ok t' /\
    t !! 2 = Some (encoding_grid 2 2 2) /\
    t' !! 1 = Some (encoding_grid 2 2 2) /\
    t !! 2 = t !! 0 /\
    (3 = 3 -> t = t').
Proof.
  apply (positional_encodings_slices_agree (F:=R) 2 2 3 64 2 3 3 2 1); lia.
Defined.

(** C6: for every [(H, W, F)] and batch size [B] the tensor has [B] slices
    of [H * W] rows of [2 F] channels each, also for odd [F]; [H = 2],
    [W = 2], [F = 2], [B = 1] gives shape [[1, 4, 4]]. *)
Theorem positional_encodings_shape {F : Type} `{FloatArith F} :
  (forall (height width c : nat) (num_pos_feats : Z) (batch_size : nat),
      exists t,
        create_positional_encodings [height; width; c] num_pos_feats batch_size
          = Ok t /\
        length t = batch_size /\
        Forall (fun slice =>
                  length slice = height * width /\
                  Forall (fun row => length row = 2 * Z.to_nat num_pos_feats) slice)
               t) /\
  (forall c : nat,
      exists t,
        create_positional_encodings [2; 2; c] 2 1 = Ok t /\
        length t = 1 /\
        Forall (fun slice =>
                  length slice = 4 /\ Forall (fun row => length row = 4) slice) t).
Proof.
  assert (forall (height width c : nat) (num_pos_feats : Z) (batch_size : nat),
      exists t,
        create_positional_encodings [height; width; c] num_pos_feats batch_size
          = Ok t /\
        length t = batch_size /\
        Forall (fun slice =>
                  length slice = height * width /\
                  Forall (fun row => length row = 2 * Z.to_nat num_pos_feats) slice)
               t) as Hshape.
  { intros height width c num_pos_feats batch_size. eexists.
    split; [apply create_positional_encodings_grid|].
    split; [apply length_replicate|].
    apply Forall_replicate. split; [apply length_encoding_grid|].
    unfold encoding_grid. apply Forall_concat, Forall_fmap, Forall_forall.
    intros h _. unfold compose. apply Forall_fmap, Forall_forall.
    intros w _. apply length_encoding_row. }
  split; [exact Hshape|].
  intros c. apply (Hshape 2 2 c 2%Z 1).
Qed.

(** C8, as the code has it: neither [create_positional_encodings] nor
    [DataFeeder.__init__] checks the configuration.  For every
    three-component shape, zero height or width included, and every
    [dim_transformer], non-positive included, construction returns a tensor
    of [B] slices; its rows have no channel when [dim_transformer // 2] is
    not positive and it has no row when the height or the width is zero. *)
Theorem init_positional_encodings_unchecked {F : Type} `{FloatArith F}
    (height width c : nat) (dim_transformer : Z) (batch_size : nat) :
  exists t,
    init_positional_encodings [height; width; c] dim_transformer batch_size = Ok t /\
    length t = batch_size /\
    Forall (fun slice =>
              length slice = height * width /\
              Forall (fun row => length row = 2 * Z.to_nat (dim_transformer / 2)) slice)
           t.
Proof.
  unfold init_positional_encodings. eexists.
  split; [apply create_positional_encodings_grid|].
  split; [apply length_replicate|].
  apply Forall_replicate. split; [apply length_encoding_grid|].
  unfold encoding_grid. apply Forall_concat, Forall_fmap, Forall_forall.
  intros h _. unfold compose. apply Forall_fmap, Forall_forall.
  intros w _. apply length_encoding_row.
Qed.

(** C8 as stated fails: a feature map of zero height and zero width with
    [dim_transformer = 0] is not rejected. *)
Lemma init_positional_encodings_accepts_invalid :
  ~ fails (init_positional_encodings (F:=R) [0; 0; 3] 0 1).
Proof.
  intros [e He]. unfold init_positional_encodings in He.
  rewrite create_positional_encodings_grid in He. discriminate He.
Qed.

(** C10: the call succeeds only on a shape of exactly three components, a
    shape [[H, W]] fails at the unpacking, and the third component does not
    influence the result. *)
Theorem create_positional_encodings_fm_shape {F : Type} `{FloatArith F}
    (fm_shape : list nat) (num_pos_feats : Z) (batch_size : nat)
    (t : list (list (list F))) :
  create_positional_encodings fm_shape num_pos_feats batch_size = Ok t ->
  (exists height width c,
      fm_shape = [height; width; c] /\
      forall c',
        create_positional_encodings [height; width; c'] num_pos_feats batch_size
          = Ok t) /\
  (forall height width,
      create_positional_encodings [height; width] num_pos_feats batch_size
        = Raise ValueError).
Proof.
  intros Ht. split; [|reflexivity].
  destruct fm_shape as [|height [|width [|c [|extra rest]]]]; try discriminate Ht.
  exists height, width, c. split; [reflexivity|].
  intros c'. rewrite create_positional_encodings_grid in *. exact Ht.
Qed.

Lemma create_positional_encodings_fm_shape_witness :
  (exists height width c,
      [2; 3; 7] = [height; width; c] /\
      forall c',
        create_positional_encodings (F:=R) [height; width; c'] 1 1
          = Ok [encoding_grid 2 3 1]) /\
  (forall height width,
      create_positional_encodings (F:=R) [height; width] 1 1 = Raise ValueError).
Proof.
  apply (create_positional_encodings_fm_shape (F:=R) [2; 3; 7] 1 1).
  exact (create_positional_encodings_grid 2 3 7 1 1).
Defined.

(** ** Loading labels *)

(** C9: a parsed flat vector of five elements, the label file of one
    object, is returned with shape [[1, 5]] and the same elements; a parsed
    array of shape [[n, 5]], the label file of [n > 1] objects, is returned
    with shape [[n, 5]], converted to float32. *)
Theorem loadlabel_shape {F : Type} `{FloatCmp F} :
  (forall v : list F,
      length v = 5 ->
      loadlabel (NdArray [5] v) = Ok (NdArray [1; 5] v)) /\
  (forall (n : nat) (d : list F),
      1 < n ->
      loadlabel (NdArray [n; 5] d)
        = Ok (NdArray [n; 5] (map to_float32 d))).
Proof.
  split.
  - intros v Hv. unfold loadlabel, reshape. cbn. rewrite Hv. reflexivity.
  - intros n d _. reflexivity.
Qed.

Lemma loadlabel_shape_witness :
  loadlabel (NdArray [5] (lbl 0 (1#2) (1#2) (1#5) (1#5)))
    = Ok (NdArray [1; 5] (lbl 0 (1#2) (1#2) (1#5) (1#5))) /\
  loadlabel (NdArray [2; 5] (concat example_labels))
    = Ok (NdArray [2; 5] (map to_float32 (concat example_labels))).
Proof.
  split.
  - apply (proj1 (loadlabel_shape (F:=Q))). reflexivity.
  - apply (proj2 (loadlabel_shape (F:=Q))). lia.
Defined.

(** * Further properties of the code *)

(** ** The index tracker *)

Section TrackerLaws.
Context {F : Type} `{FloatCmp F}.

Lemma length_ranges_from (counts : list nat) :
  forall offset, map length (ranges_from offset counts) = counts.
Proof.
  induction counts as [|k rest IH]; intros offset; [reflexivity|].
  cbn [ranges_from map]. rewrite length_seq, IH. reflexivity.
Qed.

(** X1: whatever the batch, the tracker emits one range per sample, in
    batch order; range [i] has the length of the count taken for sample
    [i], the ranges are contiguous from 0, and their concatenation is
    [0 .. total - 1] without repetition. *)
Theorem retrieve_obj_indices_partition (batch_cls : list (list (list F))) :
  let counts := map num_objects_in_sample batch_cls in
  let obj_indices := retrieve_obj_indices batch_cls in
  obj_indices = ranges_from 0 counts /\
  length obj_indices = length batch_cls /\
  map length obj_indices = counts /\
  concat obj_indices = seq 0 (sum_list counts) /\
  NoDup (concat obj_indices).
Proof.
  cbv zeta. rewrite retrieve_obj_indices_ranges.
  split; [reflexivity|].
  split; [rewrite <- (length_map length), length_ranges_from, length_map; reflexivity|].
  split; [apply length_ranges_from|].
  rewrite concat_ranges_from. split; [reflexivity|apply NoDup_seq].
Qed.

Lemma filter_all (p : F -> bool) (l : list F) :
  Forall (fun x => p x = true) l -> List.filter p l = l.
Proof.
  induction 1 as [|x l Hx Hl IH]; [reflexivity|].
  cbn [List.filter]. rewrite Hx, IH. reflexivity.
Qed.

Lemma filter_none (p : F -> bool) (l : list F) :
  Forall (fun x => p x = false) l -> List.filter p l = [].
Proof.
  induction 1 as [|x l Hx Hl IH]; [reflexivity|].
  cbn [List.filter]. rewrite Hx, IH. reflexivity.
Qed.

Lemma concat_singletons (v : F) (n : nat) :
  concat (replicate n [v]) = replicate n v.
Proof. induction n as [|n IH]; [reflexivity|]. cbn. rewrite IH. reflexivity. Qed.

(** The count of a padded class target whose classes all differ from the
    tested value, which the padding equals. *)
Lemma count_padded_target (sample_labels : list (list F)) (pad : nat) (v : F) :
  fne v v = false ->
  Forall (fun row => length row = 5 /\
                     forall c, row !! 0 = Some c -> fne c v = true) sample_labels ->
  length (List.filter (fun x => fne x v)
            (concat (map (take 1) sample_labels ++ replicate pad [v])))
    = length sample_labels.
Proof.
  intros Hvv Hrows. rewrite concat_app, List.filter_app, length_app.
  rewrite concat_singletons, (filter_none _ (replicate pad v))
    by (apply Forall_replicate; exact Hvv).
  cbn [length]. rewrite Nat.add_0_r.
  induction Hrows as [|row rest [Hlen Hcls] Hrest IH]; [reflexivity|].
  destruct row as [|c row]; [discriminate Hlen|].
  cbn [map]. change (take 1 (c :: row)) with [c]. cbn [concat app List.filter].
  rewrite (Hcls c) by reflexivity. cbn [length]. rewrite IH. reflexivity.
Qed.

End TrackerLaws.

(** ** The targets of a batch *)

Section CallLaws.
Context {F : Type} `{FloatCmp F}.

Lemma Forall_length_float32 (labels : list (list F)) :
  Forall (fun row => length row = 5) labels ->
  Forall (fun row => length row = 5) (map (map to_float32) labels).
Proof.
  intros Hrows. apply Forall_fmap. eapply Forall_impl; [exact Hrows|].
  intros row Hrow. unfold compose. rewrite length_map. exact Hrow.
Qed.



(** The batch loop on samples that all fit. *)
Lemma batch_targets_fits (batch_labels : list (list (list F)))
    (num_queries num_classes : Z) :
  Forall (fun labels => Forall (fun row => length row = 5) labels /\
                        (Z.of_nat (length labels) <= num_queries)%Z) batch_labels ->
  batch_targets batch_labels num_queries num_classes =
    Ok (map (fun labels =>
               map (take 1) (map (map to_float32) labels)
                 ++ replicate (Z.to_nat num_queries - length labels)
                      [of_int num_classes]) batch_labels,
        map (fun labels =>
               map (drop 1) (map (map to_float32) labels)
                 ++ replicate (Z.to_nat num_queries - length labels)
                      (replicate 4 (of_int num_classes))) batch_labels).
Proof.
  induction 1 as [|labels rest [Hrows Hfit] Hrest IH]; [reflexivity|].
  cbn [batch_targets]. cbv zeta.
  rewrite labels_to_targets_fits
    by (try apply Forall_length_float32; rewrite ?length_map; assumption).
  run_bind. rewrite IH. run_bind. rewrite !length_map. reflexivity.
Qed.

(** The tracker is reached with the class targets of a batch that is not
    empty. *)
Lemma retrieve_obj_indices_of_targets {A : Type} (f : A -> list (list F))
    (batch : list A) :
  batch <> [] ->
  retrieve_obj_indices_of_list (map f batch) = Ok (retrieve_obj_indices (map f batch)).
Proof. destruct batch; [contradiction|reflexivity]. Qed.

(** X2: with [num_classes = 4], the value the tracker tests, a batch that
    is not empty, whose samples fit and whose class ids differ from [4.0],
    gets the index ranges of its label counts: sample [i] owns as many
    indices as it has labels, starting where sample [i - 1] ended. *)
Theorem call_targets_default_sentinel (batch_labels : list (list (list F)))
    (num_queries : Z) :
  batch_labels <> [] ->
  fne (of_int 4) (of_int 4) = false ->
  Forall (fun labels =>
            Forall (fun row => length row = 5 /\
                      forall c, row !! 0 = Some c ->
                                fne (to_float32 c) (of_int 4) = true) labels /\
            (Z.of_nat (length labels) <= num_queries)%Z) batch_labels ->
  exists batch_cls batch_bbox,
    call_targets batch_labels num_queries 4
      = Ok (batch_cls, batch_bbox, ranges_from 0 (map length batch_labels)).
Proof.
  intros Hbatch_ne Hpad Hbatch. unfold call_targets.
  rewrite batch_targets_fits.
  2:{ eapply Forall_impl; [exact Hbatch|]. intros labels [Hrows Hfit].
      split; [|exact Hfit]. eapply Forall_impl; [exact Hrows|].
      intros row [Hlen _]. exact Hlen. }
  run_bind. rewrite retrieve_obj_indices_of_targets by exact Hbatch_ne.
  cbn beta iota. eexists _, _. do 2 f_equal.
  rewrite retrieve_obj_indices_ranges. f_equal.
  rewrite <- list_fmap_compose. apply Forall_fmap_ext_1.
  eapply Forall_impl; [exact Hbatch|]. intros labels [Hrows _]. unfold compose.
  rewrite num_objects_in_sample_counts. unfold count_non_sentinel.
  rewrite count_padded_target; [apply length_map|exact Hpad|].
  apply Forall_fmap. eapply Forall_impl; [exact Hrows|].
  intros row [Hlen Hcls]. unfold compose. split; [rewrite length_map; exact Hlen|].
  intros c Hc. rewrite list_lookup_fmap in Hc.
  destruct (row !! 0) as [c0|] eqn:Hc0; [|discriminate Hc].
  injection Hc as <-. apply Hcls. reflexivity.
Qed.


(** X4: a label array that is not empty and whose rows do not have five
    columns is rejected with [ValueError], whatever [num_queries]: the
    unpacking of the first row fails before any store. *)
Theorem labels_to_targets_malformed_row (sample_labels : list (list F))
    (columns : nat) (num_queries num_classes : Z) :
  sample_labels <> [] ->
  columns <> 5 ->
  Forall (fun row => length row = columns) sample_labels ->
  labels_to_targets sample_labels num_queries num_classes = Raise ValueError.
Proof.
  intros Hne Hcolumns Hrows. unfold labels_to_targets, np_full.
  destruct (num_queries <? 0)%Z; [reflexivity|]. run_bind.
  destruct sample_labels as [|bad rest]; [contradiction|].
  inversion Hrows as [|? ? Hbad _]; subst.
  cbn [targets_loop].
  assert (unpack5 bad = Raise ValueError) as ->; [|reflexivity].
  do 5 (destruct bad as [|? bad]; [reflexivity|]).
  destruct bad; [contradiction Hcolumns|]; reflexivity.
Qed.


End CallLaws.

Lemma call_targets_default_sentinel_witness :
  exists batch_cls batch_bbox,
    call_targets example_batch 3 4
      = Ok (batch_cls, batch_bbox, ranges_from 0 (map length example_batch)).
Proof.
  apply (call_targets_default_sentinel (F:=Q) example_batch 3).
  - discriminate.
  - reflexivity.
  - repeat (constructor; [split; [repeat (constructor;
      [split; [reflexivity|intros c Hc; injection Hc as <-; reflexivity]|]);
      constructor | simpl; lia]|]). constructor.
Defined.


Lemma labels_to_targets_malformed_row_witness :
  labels_to_targets [[0%Q; 1#2; 1#2]; [1%Q; 1#4; 1#4]] 5 2 = Raise ValueError.
Proof.
  apply (labels_to_targets_malformed_row (F:=Q)
           [[0%Q; 1#2; 1#2]; [1%Q; 1#4; 1#4]] 3 5 2).
  - discriminate.
  - lia.
  - repeat constructor.
Defined.


(** ** Label files *)

Section LoadLabelLaws.
Context {F : Type} `{FloatCmp F}.

(** X6: on a one-dimensional array, which [loadtxt] returns for one line,
    for an empty file and for a file of one column, [loadlabel] succeeds
    exactly when the array has five elements; otherwise the reshape raises
    [ValueError]. *)
Theorem loadlabel_flat_size (labels : ndarray F) :
  ndim labels = 1 ->
  (length (data labels) = 5 ->
     loadlabel labels = Ok (NdArray [1; 5] (data labels))) /\
  (length (data labels) <> 5 -> loadlabel labels = Raise ValueError).
Proof.
  intros Hdim. unfold loadlabel, reshape. rewrite Hdim.
  change (foldr Nat.mul 1 [1; 5]) with 5. cbn [Nat.eqb].
  split; intros Hlen.
  - rewrite Hlen. reflexivity.
  - destruct (Nat.eqb_spec (length (data labels)) 5); [contradiction|reflexivity].
Qed.

(** Row [i] of the row-major data of rows of [m] elements. *)
Lemma chunk_concat_rows (m : nat) (rows : list (list F)) :
  Forall (fun row => length row = m) rows ->
  forall (i : nat) (row : list F),
    rows !! i = Some row ->
    take m (drop (i * m) (concat rows)) = row.
Proof.
  induction 1 as [|r rest Hr Hrest IH]; intros i row Hi; [discriminate Hi|].
  cbn [concat]. destruct i as [|i].
  - injection Hi as ->. cbn [Nat.mul drop]. apply take_app_length'. congruence.
  - cbn [lookup list_lookup] in Hi. cbn [Nat.mul].
    rewrite drop_app_add' by congruence. apply IH. exact Hi.
Qed.

(** Iterating over a two-dimensional array yields the rows it was built
    from. *)
Lemma rows_of_concat (m : nat) (rows : list (list F)) :
  Forall (fun row => length row = m) rows ->
  rows_of (NdArray [length rows; m] (concat rows)) = rows.
Proof.
  intros Hrows. unfold rows_of. cbn [shape data].
  apply list_eq. intros i. rewrite list_lookup_fmap.
  destruct (rows !! i) as [row|] eqn:Hi.
  - rewrite lookup_seq_lt by (eapply lookup_lt_Some; exact Hi).
    cbn [fmap option_fmap option_map Nat.add]. f_equal.
    apply chunk_concat_rows; assumption.
  - rewrite lookup_seq_ge by (apply lookup_ge_None; exact Hi). reflexivity.
Qed.

(** X7: the labels of a file with several objects reach the encoder row by
    row: for rows of five columns, [loadlabel] returns an array whose rows
    are the parsed rows converted to float32, in file order. *)
Theorem loadlabel_rows (rows : list (list F)) :
  Forall (fun row => length row = 5) rows ->
  exists labels,
    loadlabel (NdArray [length rows; 5] (concat rows)) = Ok labels /\
    shape labels = [length rows; 5] /\
    rows_of labels = map (map to_float32) rows.
Proof.
  intros Hrows. eexists. split; [reflexivity|]. split; [reflexivity|].
  unfold as_float32. cbn [shape data].
  replace (map to_float32 (concat rows)) with (concat (map (map to_float32) rows)).
  - rewrite <- (length_map (map to_float32) rows) at 1.
    apply rows_of_concat. apply Forall_fmap.
    eapply Forall_impl; [exact Hrows|]. intros row Hrow. unfold compose.
    rewrite length_map. exact Hrow.
  - clear Hrows. induction rows as [|row rest IH]; [reflexivity|].
    cbn [map concat]. rewrite IH, map_app. reflexivity.
Qed.

(** X8: a label file of one object ends in slot 0 of the targets: the flat
    vector that [loadtxt] returns is reshaped to one row, which
    [__call__] encodes into the first slot, every other slot holding the
    sentinel; the tracker is handed that class target. *)
Theorem loadlabel_single_object_targets (c x y w h : F) (num_queries num_classes : Z) :
  (1 <= num_queries)%Z ->
  exists labels,
    loadlabel (NdArray [5] [c; x; y; w; h]) = Ok labels /\
    rows_of labels = [[c; x; y; w; h]] /\
    call_targets [rows_of labels] num_queries num_classes =
      let sample_cls := [to_float32 c]
            :: replicate (Z.to_nat num_queries - 1) [of_int num_classes] in
      let sample_bbox := [to_float32 x; to_float32 y; to_float32 w; to_float32 h]
            :: replicate (Z.to_nat num_queries - 1)
                 (replicate 4 (of_int num_classes)) in
      Ok ([sample_cls], [sample_bbox], retrieve_obj_indices [sample_cls]).
Proof.
  intros HQ. eexists. split; [reflexivity|]. split; [reflexivity|].
  unfold call_targets.
  change (rows_of _) with [[c; x; y; w; h]].
  rewrite batch_targets_fits
    by (repeat constructor; cbn [length]; lia).
  reflexivity.
Qed.

End LoadLabelLaws.

Lemma loadlabel_flat_size_witness :
  (length (data (NdArray [0] (@nil Q))) = 5 ->
     loadlabel (NdArray [0] (@nil Q)) = Ok (NdArray [1; 5] [])) /\
  (length (data (NdArray [0] (@nil Q))) <> 5 ->
     loadlabel (NdArray [0] (@nil Q)) = Raise ValueError).
Proof.
  apply (loadlabel_flat_size (F:=Q) (NdArray [0] [])). reflexivity.
Defined.

Lemma loadlabel_rows_witness :
  exists labels,
    loadlabel (NdArray [length example_labels; 5] (concat example_labels))
      = Ok labels /\
    shape labels = [length example_labels; 5] /\
    rows_of labels = map (map to_float32) example_labels.
Proof.
  apply (loadlabel_rows (F:=Q) example_labels).
  repeat constructor.
Defined.

Lemma loadlabel_single_object_targets_witness :
  exists labels,
    loadlabel (NdArray [5] [0%Q; 1#2; 1#2; 1#5; 1#5]) = Ok labels /\
    rows_of labels = [[0%Q; 1#2; 1#2; 1#5; 1#5]] /\
    call_targets [rows_of labels] 3 2 =
      let sample_cls := [to_float32 0%Q] :: replicate (Z.to_nat 3 - 1) [of_int 2] in
      let sample_bbox :=
        [to_float32 (1#2); to_float32 (1#2); to_float32 (1#5); to_float32 (1#5)]
          :: replicate (Z.to_nat 3 - 1) (replicate 4 (of_int 2)) in
      Ok ([sample_cls], [sample_bbox], retrieve_obj_indices [sample_cls]).
Proof.
  apply (loadlabel_single_object_targets (F:=Q) 0%Q (1#2) (1#2) (1#5) (1#5) 3 2). lia.
Defined.

(** ** The layout of the positional encodings *)

Section PositionalLaws.
Context {F : Type} `{FloatArith F}.

(** Consecutive source channels [2 i] and [2 i + 1] share their divisor. *)
Lemma div_entry_pair (num_pos_feats : Z) (i : nat) :
  div_entry num_pos_feats (Z.of_nat (2 * i + 1))
    = div_entry num_pos_feats (Z.of_nat (2 * i)).
Proof.
  unfold div_entry. do 3 f_equal.
  rewrite <- (Z.div_unique (Z.of_nat (2 * i + 1)) 2 (Z.of_nat i) 1) by lia.
  rewrite <- (Z.div_unique (Z.of_nat (2 * i)) 2 (Z.of_nat i) 0) by lia.
  reflexivity.
Qed.

Lemma axis_channels_repeat (num_pos_feats p : Z) (j : nat) :
  j < Nat.div2 (Z.to_nat num_pos_feats) ->
  axis_channels num_pos_feats p !! (Nat.div2 (S (Z.to_nat num_pos_feats)) + j)
    = axis_channels num_pos_feats p !! j.
Proof.
  intros Hj. set (n := Z.to_nat num_pos_feats) in *.
  pose proof (div2_halves n) as Hhalves.
  pose proof (div2_upper_half n) as Hupper.
  rewrite !lookup_axis_channels by (fold n; lia). fold n.
  unfold source_channel.
  destruct (Nat.ltb_spec (Nat.div2 (S n) + j) (Nat.div2 (S n))) as [Hlt|_]; [lia|].
  destruct (Nat.ltb_spec j (Nat.div2 (S n))) as [_|Hge]; [|lia].
  replace (Nat.div2 (S n) + j - Nat.div2 (S n)) with j by lia.
  rewrite div_entry_pair. reflexivity.
Qed.

Lemma elem_of_concat_rows (row : list F) (rows : list (list (list F))) :
  row ∈ concat rows -> exists cells, row ∈ cells /\ cells ∈ rows.
Proof.
  induction rows as [|cells rest IH]; cbn [concat]; intros Hrow.
  - inversion Hrow.
  - apply elem_of_app in Hrow as [Hhere|Hlater].
    + exists cells. split; [exact Hhere|apply list_elem_of_here].
    + destruct (IH Hlater) as (cells' & Hin & Hrest).
      exists cells'. split; [exact Hin|apply list_elem_of_further; exact Hrest].
Qed.

(** X9: every axis block holds its values twice.  In the row of every
    cell, channel [ceil(F/2) + j] equals channel [j] for every
    [j < floor(F/2)], in the first block of [F] channels and in the
    second. *)
Theorem positional_encodings_repeated_channels
    (height width c : nat) (num_pos_feats : Z) (batch_size b h w j : nat) :
  b < batch_size -> h < height -> w < width ->
  j < Nat.div2 (Z.to_nat num_pos_feats) ->
  exists t slice row,
    create_positional_encodings [height; width; c] num_pos_feats batch_size = Ok t /\
    t !! b = Some slice /\
    slice !! (h * width + w) = Some row /\
    row !! (Nat.div2 (S (Z.to_nat num_pos_feats)) + j) = row !! j /\
    row !! (Z.to_nat num_pos_feats + (Nat.div2 (S (Z.to_nat num_pos_feats)) + j))
      = row !! (Z.to_nat num_pos_feats + j).
Proof.
  intros Hb Hh Hw Hj. eexists _, _, _.
  split; [apply create_positional_encodings_grid|].
  split; [apply lookup_replicate_2; exact Hb|].
  split; [apply lookup_encoding_grid; assumption|].
  unfold encoding_row.
  destruct (div2_lower_half (Z.to_nat num_pos_feats) j Hj) as [Hj1 Hj2].
  rewrite !list_lookup_fmap. split.
  - rewrite (lookup_app_l _ _ j), (lookup_app_l _ _ (_ + j))
      by (rewrite length_axis_channels; lia).
    rewrite axis_channels_repeat by exact Hj. reflexivity.
  - rewrite (lookup_app_r _ _ (_ + j)), (lookup_app_r _ _ (_ + (_ + j)))
      by (rewrite length_axis_channels; apply Nat.le_add_r).
    rewrite length_axis_channels.
    rewrite !(Nat.add_comm (Z.to_nat num_pos_feats)), !Nat.add_sub.
    rewrite axis_channels_repeat by exact Hj. reflexivity.
Qed.

Lemma take_encoding_row (num_pos_feats : Z) (h w : nat) :
  take (Z.to_nat num_pos_feats) (encoding_row num_pos_feats h w)
    = map to_float32 (axis_channels num_pos_feats (1 + Z.of_nat h)).
Proof.
  unfold encoding_row. rewrite map_app.
  apply take_app_length'. rewrite length_map, length_axis_channels. reflexivity.
Qed.

Lemma drop_encoding_row (num_pos_feats : Z) (h w : nat) :
  drop (Z.to_nat num_pos_feats) (encoding_row num_pos_feats h w)
    = map to_float32 (axis_channels num_pos_feats (1 + Z.of_nat w)).
Proof.
  unfold encoding_row. rewrite map_app.
  apply drop_app_length'. rewrite length_map, length_axis_channels. reflexivity.
Qed.

(** X10: the encoding is separable.  In every batch slice the first [F]
    channels of a cell depend on its row index only and the last [F]
    channels on its column index only, and both are the same function of
    the index: the first block of cell [(h, w)] is the last block of every
    cell in column [h]. *)
Theorem positional_encodings_separable
    (height width c : nat) (num_pos_feats : Z) (batch_size b h w h' w' : nat) :
  b < batch_size -> h < height -> w < width -> h' < height -> w' < width ->
  exists t slice row row',
    create_positional_encodings [height; width; c] num_pos_feats batch_size = Ok t /\
    t !! b = Some slice /\
    slice !! (h * width + w) = Some row /\
    slice !! (h' * width + w') = Some row' /\
    (h = h' -> take (Z.to_nat num_pos_feats) row = take (Z.to_nat num_pos_feats) row') /\
    (w = w' -> drop (Z.to_nat num_pos_feats) row = drop (Z.to_nat num_pos_feats) row') /\
    (h = w' -> take (Z.to_nat num_pos_feats) row = drop (Z.to_nat num_pos_feats) row').
Proof.
  intros Hb Hh Hw Hh' Hw'. eexists _, _, _, _.
  split; [apply create_positional_encodings_grid|].
  split; [apply lookup_replicate_2; exact Hb|].
  split; [apply lookup_encoding_grid; assumption|].
  split; [apply lookup_encoding_grid; assumption|].
  rewrite !take_encoding_row, !drop_encoding_row.
  repeat split; intros ->; reflexivity.
Qed.

(** X11: the rows have [dim_transformer] channels only when
    [dim_transformer] is even; for an odd [dim_transformer] they have one
    channel less. *)
Theorem init_positional_encodings_channel_count
    (height width c : nat) (dim_transformer : Z) (batch_size : nat) :
  (0 <= dim_transformer)%Z ->
  exists t,
    init_positional_encodings [height; width; c] dim_transformer batch_size = Ok t /\
    forall slice row,
      slice ∈ t -> row ∈ slice ->
      Z.of_nat (length row) = (dim_transformer - dim_transformer mod 2)%Z.
Proof.
  intros Hdim. unfold init_positional_encodings. eexists.
  split; [apply create_positional_encodings_grid|].
  intros slice row Hslice Hrow.
  apply elem_of_replicate in Hslice as [-> _].
  unfold encoding_grid in Hrow.
  apply elem_of_concat_rows in Hrow as (cells & Hrow & Hcells).
  apply list_elem_of_fmap in Hcells as (h & -> & _).
  apply list_elem_of_fmap in Hrow as (w & -> & _).
  rewrite length_encoding_row.
  pose proof (Z.div_pos dim_transformer 2 Hdim ltac:(lia)) as Hhalf.
  pose proof (Z_div_mod_eq_full dim_transformer 2) as Hdivmod.
  lia.
Qed.

End PositionalLaws.

Lemma positional_encodings_separable_witness :
  exists t slice row row',
    create_positional_encodings (F:=R) [3; 3; 7] 4 2 = Ok t /\
    t !! 1 = Some slice /\
    slice !! (1 * 3 + 2) = Some row /\
    slice !! (1 * 3 + 1) = Some row' /\
    (1 = 1 -> take (Z.to_nat 4) row = take (Z.to_nat 4) row') /\
    (2 = 1 -> drop (Z.to_nat 4) row = drop (Z.to_nat 4) row') /\
    (1 = 1 -> take (Z.to_nat 4) row = drop (Z.to_nat 4) row').
Proof.
  apply (positional_encodings_separable (F:=R) 3 3 7 4 2 1 1 2 1 1); lia.
Defined.

Lemma init_positional_encodings_channel_count_witness :
  exists t,
    init_positional_encodings (F:=R) [2; 2; 7] 5 1 = Ok t /\
    forall slice row,
      slice ∈ t -> row ∈ slice ->
      Z.of_nat (length row) = (5 - 5 mod 2)%Z.
Proof.
  apply (init_positional_encodings_channel_count (F:=R) 2 2 7 5 1). lia.
Defined.

(** ** File names *)

Lemma list_ascii_of_append (a b : string) :
  String.list_ascii_of_string (a +:+ b)
    = String.list_ascii_of_string a ++ String.list_ascii_of_string b.
Proof.
  induction a as [|ch a IH]; [reflexivity|].
  change (ch :: String.list_ascii_of_string (a +:+ b)
          = ch :: (String.list_ascii_of_string a ++ String.list_ascii_of_string b)).
  rewrite IH. reflexivity.
Qed.

Lemma string_app_inv_tail (a b suffix : string) :
  (a +:+ suffix)%string = (b +:+ suffix)%string -> a = b.
Proof.
  intros Heq. apply (f_equal String.list_ascii_of_string) in Heq.
  rewrite !list_ascii_of_append in Heq. apply app_inv_tail in Heq.
  rewrite <- (String.string_of_list_ascii_of_string a),
          <- (String.string_of_list_ascii_of_string b), Heq.
  reflexivity.
Qed.

(** X12: within one storage directory, different uuids name different
    image files and different label files, and no image file is a label
    file. *)
Theorem sample_paths_distinct (path uuid uuid' : string) :
  (image_path path uuid = image_path path uuid' -> uuid = uuid') /\
  (label_path path uuid = label_path path uuid' -> uuid = uuid') /\
  image_path path uuid <> label_path path uuid'.
Proof.
  unfold image_path, label_path. repeat split.
  - intros Heq. apply String.app_inj, String.app_inj in Heq.
    apply string_app_inv_tail in Heq. exact Heq.
  - intros Heq. apply String.app_inj, String.app_inj in Heq.
    apply string_app_inv_tail in Heq. exact Heq.
  - intros Heq. apply String.app_inj in Heq. discriminate Heq.
Qed.

Lemma sample_paths_distinct_witness :
  (image_path "data" "a" = image_path "data" "b" -> "a"%string = "b"%string) /\
  (label_path "data" "a" = label_path "data" "b" -> "a"%string = "b"%string) /\
  image_path "data" "a" <> label_path "data" "b".
Proof.
  apply (sample_paths_distinct "data" "a" "b").
Defined.

Lemma string_app_assoc (a b c : string) :
  ((a +:+ b) +:+ c)%string = (a +:+ (b +:+ c))%string.
Proof.
  induction a as [|ch a IH]; [reflexivity|].
  change (String ch ((a +:+ b) +:+ c) = String ch (a +:+ (b +:+ c))).
  rewrite IH. reflexivity.
Qed.

(** X13: the training script and the data feeder agree on the image
    files: the file that [get_image_information] opens for the listed name
    [uuid.jpg] is the file that [loadimage] opens for [uuid]. *)
Theorem listed_image_is_loaded_image (storage_path uuid : string) :
  listed_image_path storage_path (uuid +:+ ".jpg") = image_path storage_path uuid.
Proof.
  unfold listed_image_path, images_directory, image_path.
  rewrite !string_app_assoc. reflexivity.
Qed.

Lemma positional_encodings_repeated_channels_witness :
  exists t slice row,
    create_positional_encodings (F:=R) [2; 2; 7] 5 1 = Ok t /\
    t !! 0 = Some slice /\
    slice !! (1 * 2 + 1) = Some row /\
    row !! (Nat.div2 (S (Z.to_nat 5)) + 1) = row !! 1 /\
    row !! (Z.to_nat 5 + (Nat.div2 (S (Z.to_nat 5)) + 1)) = row !! (Z.to_nat 5 + 1).
Proof.
  apply (positional_encodings_repeated_channels (F:=R) 2 2 7 5 1 0 1 1 1);
    simpl; lia.
Defined.
